(** * Execution tracer of node-newrelic: context propagation

    A shallow embedding of [lib/transaction/tracer.js] and a verification of
    the context discipline of its three proxy methods.

    JavaScript code is embedded as functions of a state-and-exception monad
    [M] over a [World] that holds every mutable object the tracer shares with
    its callers: the Context objects, the captured [state] variables of the
    closures made by [callbackProxy], and the allocator of object
    identities.  A [throw] is an outcome of its own, and [bind] skips the
    rest of a function body once one has been raised, as JavaScript does in
    the absence of [try]. *)

From stdpp Require Import base gmap list strings.
From Stdlib Require Import ZArith Lia.

Local Open Scope string_scope.

(** ** JavaScript values *)

(** Identity of a heap object. *)
Abbreviation ref := nat.

(** The values that travel through a wrapper: the receiver, the arguments,
    the returned value and a thrown error. [VError msg] is the object built
    by [new Error(msg)]. *)
Inductive Value : Type :=
  | VUndefined
  | VNull
  | VBool (b : bool)
  | VNum (n : Z)
  | VStr (s : string)
  | VRef (r : ref)
  | VError (message : string).

(** An argument that JavaScript lets the caller leave out: [undefined],
    [null], or an object. *)
Inductive JsArg (A : Type) : Type :=
  | ArgUndefined
  | ArgNull
  | ArgObject (a : A).
Arguments ArgUndefined {A}.
Arguments ArgNull {A}.
Arguments ArgObject {A} a.

(** [!x] for such an argument. *)
Definition js_not {A : Type} (x : JsArg A) : bool :=
  match x with
  | ArgObject _ => false
  | _ => true
  end.

(** ** The collaborators' data *)

(** Modelled from the spec: Segment, one node of a transaction's call graph;
    the tracer only threads references to it. *)
Record Segment : Type := mkSegment { segment_id : ref }.

(** Modelled from the spec: the trace of a transaction, which exposes the
    root segment ([transaction.getTrace().root]). *)
Record Trace : Type := mkTrace { root : Segment }.

(** Modelled from the spec: Transaction, an object with an identity that
    exposes its root unit-of-work handle. *)
Record Transaction : Type := mkTransaction {
  transaction_id : ref;
  getTrace : Trace
}.

(** Modelled from the spec: State ([tracer/state.js] is required by the
    source but is not part of it), the record
    [{transaction, segment, handler}].  It is immutable after construction;
    [state_id] is the identity of the object made by [new State], and
    [handler] holds the reference of the guarded function. *)
Record State : Type := mkState {
  state_id : ref;
  transaction : Transaction;
  segment : Segment;
  handler : ref
}.

(** Modelled from the spec: Context, the holder of the current State, with
    the LIFO discipline of §4.1 kept as an explicit stack. *)
Record Context : Type := mkContext { stack : list State }.

(** [context.state], the property the tracer reads: the State entered most
    recently and not yet exited, or none. *)
Definition state (c : Context) : option State := head (stack c).

Definition push (s : State) (c : Context) : Context :=
  mkContext (s :: stack c).

(** The spec asks for no validation of the State given to [exit] and leaves
    the effect of an unmatched [exit] open: the frame on top is dropped.
    The statements below rest on matched exits only. *)
Definition pop (c : Context) : Context := mkContext (tail (stack c)).

#[global] Instance Context_inhabited : Inhabited Context :=
  populate (mkContext []).

(** ** The world and the monad *)

Record World : Type := mkWorld {
  (** the Context objects, by reference; a Context nobody entered is empty *)
  contexts : gmap nat Context;
  (** the [state] variables captured by the closures of [callbackProxy] *)
  variables : gmap nat State;
  (** the next unused object identity *)
  next_ref : ref
}.

Inductive Outcome (A : Type) : Type :=
  | Returned (a : A)
  | Threw (error : Value).
Arguments Returned {A} a.
Arguments Threw {A} error.

Definition M (A : Type) : Type := World -> Outcome A * World.

Definition ret {A : Type} (a : A) : M A := fun w => (Returned a, w).

Definition throw {A : Type} (error : Value) : M A := fun w => (Threw error, w).

Definition bind {A B : Type} (c : M A) (k : A -> M B) : M B :=
  fun w =>
    match c w with
    | (Returned a, w') => k a w'
    | (Threw error, w') => (Threw error, w')
    end.

Notation "'let*' x ':=' c 'in' k" := (bind c (fun x => k))
  (at level 10, x name, c at level 100, k at level 200).
Notation "c ';;;' k" := (bind c (fun _ => k))
  (at level 100, k at level 200, right associativity).

(** A function object: its identity and what [f.apply(this, arguments)]
    does. *)
Record Fun : Type := mkFun {
  fn_ref : ref;
  fn_apply : Value -> list Value -> M Value
}.

(** The allocation of one object identity. *)
Definition alloc : M ref :=
  fun w => (Returned (next_ref w),
            mkWorld (contexts w) (variables w) (S (next_ref w))).

(** A function expression: a new function object with the given body. *)
Definition new_function (body : Value -> list Value -> M Value) : M Fun :=
  let* r := alloc in ret (mkFun r body).

(** Modelled from the spec: [new State(transaction, segment, handler)]. *)
Definition new_State (t : Transaction) (s : Segment) (h : Fun) : M State :=
  let* r := alloc in ret (mkState r t s (fn_ref h)).

(** Modelled from the spec: [context.state] read through the reference. *)
Definition get_state (c : ref) : M (option State) :=
  fun w => (Returned (state (contexts w !!! c)), w).

(** Modelled from the spec: [context.enter(state)] makes [state] current and
    keeps what was current underneath. *)
Definition enter (c : ref) (s : State) : M unit :=
  fun w => (Returned tt,
            mkWorld (<[c := push s (contexts w !!! c)]> (contexts w))
                    (variables w) (next_ref w)).

(** Modelled from the spec: [context.exit(state)] restores what was current
    before the matching [enter]. *)
Definition exit (c : ref) (s : State) : M unit :=
  fun w => (Returned tt,
            mkWorld (<[c := pop (contexts w !!! c)]> (contexts w))
                    (variables w) (next_ref w)).

(** A [var] captured by a closure: declared with its first value, read and
    reassigned through its location.  Reading a location that holds nothing
    is the [TypeError] of [state.transaction] on [undefined]. *)
Definition new_var (s : State) : M ref :=
  fun w => (Returned (next_ref w),
            mkWorld (contexts w) (<[next_ref w := s]> (variables w))
                    (S (next_ref w))).

Definition read_var (x : ref) : M State :=
  fun w =>
    match variables w !! x with
    | Some s => (Returned s, w)
    | None =>
        (Threw (VError "Cannot read property 'transaction' of undefined"), w)
    end.

Definition write_var (x : ref) (s : State) : M unit :=
  fun w => (Returned tt,
            mkWorld (contexts w) (<[x := s]> (variables w)) (next_ref w)).

(** The agent, as far as the tracer uses it: a transaction factory. *)
Record Agent : Type := mkAgent { createTransaction : M Transaction }.

(** Modelled from the spec: the transaction factory of §4.3, which makes a
    new Transaction, and with it its root segment, on every call. *)
Definition factory : Agent :=
  mkAgent (let* t := alloc in
           let* s := alloc in
           ret (mkTransaction t (mkTrace (mkSegment s)))).

(** ** The tracer *)

Record Tracer : Type := mkTracer {
  numTransactions : Z;
  agent : Agent;
  context : ref
}.

(** [function Tracer(agent, context)], called with [new]. *)
Definition new_Tracer (agent : JsArg Agent) (context : JsArg ref) : M Tracer :=
  match agent with
  | ArgObject a =>
      match context with
      | ArgObject c => ret (mkTracer 0 a c)
      | _ => throw (VError "Must include shared context.")
      end
  | _ => throw (VError "Must be initialized with an agent.")
  end.

Definition wrapTransactionInvocation (self : Tracer) (handler : Fun)
    (this : Value) (arguments : list Value) : M Value :=
  let* transaction := createTransaction (agent self) in
  let* state := new_State transaction (root (getTrace transaction)) handler in
  enter (context self) state ;;;
  let* returned := fn_apply handler this arguments in
  exit (context self) state ;;;
  ret returned.

Definition transactionProxy (self : Tracer) (handler : Fun) : M Fun :=
  new_function (wrapTransactionInvocation self handler).

Definition wrapSegmentInvocation (self : Tracer) (handler : Fun)
    (this : Value) (arguments : list Value) : M Value :=
  let* state := get_state (context self) in
  match state with
  | None => fn_apply handler this arguments
  | Some state =>
      let* state := new_State (transaction state) (segment state) handler in
      enter (context self) state ;;;
      let* returned := fn_apply handler this arguments in
      exit (context self) state ;;;
      ret returned
  end.

Definition segmentProxy (self : Tracer) (handler : Fun) : M Fun :=
  new_function (wrapSegmentInvocation self handler).

(** [state] is the variable of the enclosing [callbackProxy] call, shared by
    every invocation of the closure: each occurrence reads it, and the first
    statement reassigns it. *)
Definition wrapCallbackInvocation (self : Tracer) (handler : Fun)
    (state : ref) (this : Value) (arguments : list Value) : M Value :=
  let* old := read_var state in
  let* new := new_State (transaction old) (segment old) handler in
  write_var state new ;;;
  let* entered := read_var state in
  enter (context self) entered ;;;
  let* returned := fn_apply handler this arguments in
  let* exited := read_var state in
  exit (context self) exited ;;;
  ret returned.

Definition callbackProxy (self : Tracer) (handler : Fun) : M Fun :=
  let* state := get_state (context self) in
  match state with
  | None => ret handler
  | Some state =>
      let* state := new_var state in
      new_function (wrapCallbackInvocation self handler state)
  end.

(** ** Vocabulary of the statements *)

(** [Context.current()] of the Context object [c] in the world [w], and the
    frames entered and not yet exited, most recent first. *)
Definition current (c : ref) (w : World) : option State :=
  state (contexts w !!! c).

Definition frames (c : ref) (w : World) : list State :=
  stack (contexts w !!! c).

(** The last three statements of every wrapper, applied to the outcome of
    [handler.apply(this, arguments)]: after a return, [exit] and the same
    value; after a throw, nothing at all. *)
Definition finish (c : ref) (st : State) (r : Outcome Value * World)
    : Outcome Value * World :=
  match r with
  | (Returned returned, w) => (Returned returned, snd (exit c st w))
  | (Threw error, w) => (Threw error, w)
  end.

(** The same for the closure of [callbackProxy], which reads its variable
    [x] once more to name the State it exits. *)
Definition finish_callback (c x : ref) (r : Outcome Value * World)
    : Outcome Value * World :=
  match r with
  | (Returned returned, w) =>
      match read_var x w with
      | (Returned exited, _) => (Returned returned, snd (exit c exited w))
      | (Threw error, _) => (Threw error, w)
      end
  | (Threw error, w) => (Threw error, w)
  end.

(** The State a wrapper builds in [w] and the world it hands to the
    handler: the State has the identity allocated in [w] and is entered on
    top of the frames of [w]. *)
Definition built (t : Transaction) (s : Segment) (h : Fun) (w : World)
    : State :=
  mkState (next_ref w) t s (fn_ref h).

Definition installed (c : ref) (st : State) (w : World) : World :=
  snd (enter c st (snd (alloc w))).

(** The closure of [callbackProxy] also reassigns its variable [x] before
    it enters. *)
Definition reassigned (c x : ref) (st : State) (w : World) : World :=
  snd (enter c st (snd (write_var x st (snd (alloc w))))).

(** The identities that the State [st] carries were allocated before [w]:
    a State that exists in [w] satisfies this. *)
Definition allocated (w : World) (st : State) : Prop :=
  state_id st < next_ref w /\ transaction_id (transaction st) < next_ref w.

(** The captured variable [x] holds a State of transaction [T] and segment
    [S]. *)
Definition tracks (x : ref) (T : Transaction) (S : Segment) (w : World)
    : Prop :=
  exists st, variables w !! x = Some st /\
             transaction st = T /\ segment st = S.

(** Modelled from the spec: the contract of a transaction factory.  Every
    call returns a new Transaction, one whose identity is allocated by that
    call, and leaves the Context objects alone. *)
Definition makes_new_transactions (a : Agent) : Prop :=
  forall w, exists t w',
    createTransaction a w = (Returned t, w')
    /\ transaction_id t = next_ref w
    /\ next_ref w < next_ref w'
    /\ contexts w' = contexts w.

(** ** Nested invocations *)

(** The two proxies for top-level handlers. *)
Inductive Kind : Type := Origin | Join.

Definition proxy (k : Kind) : Tracer -> Fun -> M Fun :=
  match k with
  | Origin => transactionProxy
  | Join => segmentProxy
  end.

(** The body of a handler that does work of its own and invokes wrapped
    handlers, which are bodies of the same kind. *)
Inductive Script : Type :=
  | Return (v : Value)
  | Run (code : M unit) (rest : Script)
  | Invoke (k : Kind) (inner : Script) (this : Value) (args : list Value)
      (rest : Script).

Fixpoint script_body (self : Tracer) (s : Script) : M Value :=
  match s with
  | Return v => ret v
  | Run code rest => code ;;; script_body self rest
  | Invoke k inner this args rest =>
      let* h := new_function (fun _ _ => script_body self inner) in
      let* f := proxy k self h in
      fn_apply f this args ;;;
      script_body self rest
  end.

(** The wrapped call [proxy(function () { s })(args)]. *)
Definition wrapped_call (k : Kind) (self : Tracer) (s : Script)
    (this : Value) (args : list Value) : M Value :=
  let* h := new_function (fun _ _ => script_body self s) in
  let* f := proxy k self h in
  fn_apply f this args.

(** The code of the handlers' own returns normally and neither enters nor
    exits the Context [c]. *)
Definition quiet {A : Type} (c : ref) (code : M A) : Prop :=
  forall w, exists a w', code w = (Returned a, w') /\ frames c w' = frames c w.

Fixpoint calm (c : ref) (s : Script) : Prop :=
  match s with
  | Return _ => True
  | Run code rest => quiet c code /\ calm c rest
  | Invoke _ inner _ _ rest => calm c inner /\ calm c rest
  end.

(** The function that [proxy k] wraps a handler in. *)
Definition wrapInvocation (k : Kind)
    : Tracer -> Fun -> Value -> list Value -> M Value :=
  match k with
  | Origin => wrapTransactionInvocation
  | Join => wrapSegmentInvocation
  end.

(** [n] invocations of [f] in a row, with their results. *)
Fixpoint call_times (f : Fun) (this : Value) (args : list Value) (n : nat)
    : M (list Value) :=
  match n with
  | O => ret []
  | S n' =>
      let* v := fn_apply f this args in
      let* vs := call_times f this args n' in
      ret (v :: vs)
  end.

(** [h] wrapped [n] times over by [transactionProxy]. *)
Fixpoint wrap_times (self : Tracer) (n : nat) (h : Fun) : M Fun :=
  match n with
  | O => ret h
  | S n' =>
      let* f := wrap_times self n' h in
      transactionProxy self f
  end.

(** [function () { return proxy(g).apply(this, args) }], a handler that
    wraps [g] and invokes it at once. *)
Definition calling (k : Kind) (self : Tracer) (r : ref) (g : Fun)
    (this : Value) (args : list Value) : Fun :=
  mkFun r (fun _ _ =>
    let* f := proxy k self g in
    fn_apply f this args).

(** The code throws [e] and neither enters nor exits the Context [c]. *)
Definition throws {A : Type} (c : ref) (e : Value) (code : M A) : Prop :=
  forall w, exists w', code w = (Threw e, w') /\ frames c w' = frames c w.

(** ** Concrete objects *)

Definition world0 : World := mkWorld ∅ ∅ 0.

Definition tracer0 : Tracer := mkTracer 0 factory 0.

(** [function () { return undefined }] *)
Definition noop : Fun := mkFun 100 (fun _ _ => ret VUndefined).

(** [function () { throw new Error("boom") }] *)
Definition thrower : Fun := mkFun 101 (fun _ _ => throw (VError "boom")).

(** [function () { return context.state && context.state.transaction }],
    the transaction given by its identity. *)
Definition probe (c : ref) : Fun :=
  mkFun 102 (fun _ _ =>
    let* st := get_state c in
    ret (match st with
         | Some s => VRef (transaction_id (transaction s))
         | None => VUndefined
         end)).

(** [function (a) { return 1000 * this + a }], on numbers: its result
    tells the receiver and the first argument it was called with. *)
Definition echo : Fun :=
  mkFun 103 (fun this args =>
    ret (match this, args with
         | VNum r, VNum a :: _ => VNum (1000 * r + a)
         | _, _ => VUndefined
         end)).

(** [function () { return segmentProxy(probe)() }] *)
Definition joiner (self : Tracer) : Fun :=
  mkFun 104 (fun _ _ =>
    let* f := segmentProxy self (probe (context self)) in
    fn_apply f VUndefined []).

(** A State of an ambient transaction 7 with segment 8, and the world in
    which it is current. *)
Definition ambient : State :=
  mkState 9 (mkTransaction 7 (mkTrace (mkSegment 8))) (mkSegment 8) 100.

Definition world1 : World := mkWorld {[ 0 := mkContext [ambient] ]} ∅ 10.

(** [world1] once [callbackProxy] has captured [ambient] in the variable
    10 and returned the closure 11. *)
Definition world1_captured : World :=
  mkWorld {[ 0 := mkContext [ambient] ]} {[ 10 := ambient ]} 12.

(** A later world, in which the State of another transaction is current. *)
Definition other : State :=
  mkState 22 (mkTransaction 20 (mkTrace (mkSegment 21))) (mkSegment 21) 100.

Definition world2 : World :=
  mkWorld {[ 0 := mkContext [other] ]} {[ 10 := ambient ]} 30.

(** A still later one, with no state current, after the closure has been
    invoked in [world2]. *)
Definition world3 : World :=
  mkWorld ∅ {[ 10 := built (transaction ambient) (segment ambient)
                       (probe 0) world2 ]} 31.

(** * Verification *)

(** ** The Context *)

Section context_laws.
Variables (c : ref) (st : State) (w : World).

Lemma frames_enter : frames c (snd (enter c st w)) = st :: frames c w.
Proof. unfold frames, enter; simpl. by rewrite lookup_total_insert_eq. Qed.

Lemma current_enter : current c (snd (enter c st w)) = Some st.
Proof. unfold current, enter; simpl. by rewrite lookup_total_insert_eq. Qed.

Lemma frames_exit : frames c (snd (exit c st w)) = tail (frames c w).
Proof. unfold frames, exit; simpl. by rewrite lookup_total_insert_eq. Qed.

Lemma frames_alloc : frames c (snd (alloc w)) = frames c w.
Proof. reflexivity. Qed.

Lemma current_frames : current c w = head (frames c w).
Proof. reflexivity. Qed.

(** LIFO: the matching [exit] undoes an [enter]. *)
Lemma frames_enter_exit :
  frames c (snd (exit c st (snd (enter c st w)))) = frames c w.
Proof.
  unfold frames, exit, enter; simpl. by rewrite !lookup_total_insert_eq.
Qed.
End context_laws.

Lemma current_of_frames (c : ref) (w w' : World) :
  frames c w' = frames c w -> current c w' = current c w.
Proof. rewrite !current_frames. by intros ->. Qed.

(** A handler that left the frames as they were left the current state as
    it was. *)
Ltac same_current Hkept := rewrite (current_of_frames _ _ _ Hkept).

(** ** What one invocation of each wrapper does *)

Lemma frames_installed (c : ref) (st : State) (w : World) :
  frames c (installed c st w) = st :: frames c w.
Proof. unfold installed. by rewrite frames_enter. Qed.

Lemma current_installed (c : ref) (st : State) (w : World) :
  current c (installed c st w) = Some st.
Proof. unfold installed. by rewrite current_enter. Qed.

Lemma wrapTransactionInvocation_run (self : Tracer) (h : Fun)
    (this : Value) (args : list Value) (w w1 : World) (t : Transaction) :
  createTransaction (agent self) w = (Returned t, w1) ->
  let st := built t (root (getTrace t)) h w1 in
  wrapTransactionInvocation self h this args w =
  finish (context self) st
    (fn_apply h this args (installed (context self) st w1)).
Proof.
  intros Hnew st. unfold wrapTransactionInvocation, bind at 1. rewrite Hnew.
  unfold bind, new_State, installed, finish, ret; simpl.
  by destruct (fn_apply h this args _) as [[v|e] w'].
Qed.

Lemma wrapSegmentInvocation_run (self : Tracer) (h : Fun)
    (this : Value) (args : list Value) (w : World) (st0 : State) :
  current (context self) w = Some st0 ->
  let st := built (transaction st0) (segment st0) h w in
  wrapSegmentInvocation self h this args w =
  finish (context self) st
    (fn_apply h this args (installed (context self) st w)).
Proof.
  intros Hcur st. unfold wrapSegmentInvocation, bind at 1, get_state.
  unfold current in Hcur. rewrite Hcur.
  unfold bind, new_State, installed, finish, ret; simpl.
  by destruct (fn_apply h this args _) as [[v|e] w'].
Qed.

Lemma wrapSegmentInvocation_idle (self : Tracer) (h : Fun)
    (this : Value) (args : list Value) (w : World) :
  current (context self) w = None ->
  wrapSegmentInvocation self h this args w = fn_apply h this args w.
Proof.
  intros Hcur. unfold wrapSegmentInvocation, bind, get_state.
  unfold current in Hcur. by rewrite Hcur.
Qed.

Lemma wrapCallbackInvocation_run (self : Tracer) (h : Fun) (x : ref)
    (this : Value) (args : list Value) (w : World) (old : State) :
  variables w !! x = Some old ->
  let st := built (transaction old) (segment old) h w in
  wrapCallbackInvocation self h x this args w =
  finish_callback (context self) x
    (fn_apply h this args (reassigned (context self) x st w)).
Proof.
  intros Hx st. unfold wrapCallbackInvocation, bind at 1, read_var at 1.
  rewrite Hx. unfold bind at 1, new_State, bind at 1, alloc, ret.
  unfold bind at 1, write_var. unfold bind at 1, read_var at 1; simpl.
  rewrite lookup_insert_eq. unfold bind at 1, enter; simpl.
  unfold bind at 1, reassigned, enter, write_var, alloc, finish_callback; simpl.
  fold st. destruct (fn_apply h this args _) as [[v|e] w']; [|done].
  unfold bind, read_var. by destruct (variables w' !! x).
Qed.

Section reassigned_laws.
Variables (c x : ref) (st : State) (w : World).

Lemma frames_reassigned : frames c (reassigned c x st w) = st :: frames c w.
Proof. unfold reassigned. by rewrite frames_enter. Qed.

Lemma current_reassigned : current c (reassigned c x st w) = Some st.
Proof. unfold reassigned. by rewrite current_enter. Qed.

Lemma variables_reassigned :
  variables (reassigned c x st w) !! x = Some st.
Proof. unfold reassigned; simpl. by rewrite lookup_insert_eq. Qed.
End reassigned_laws.

(** ** What each proxy method returns *)

Lemma transactionProxy_makes (self : Tracer) (h f : Fun) (w0 w0' : World) :
  transactionProxy self h w0 = (Returned f, w0') ->
  fn_apply f = wrapTransactionInvocation self h.
Proof.
  unfold transactionProxy, new_function, bind, alloc, ret.
  by intros [= <- _].
Qed.

Lemma segmentProxy_makes (self : Tracer) (h f : Fun) (w0 w0' : World) :
  segmentProxy self h w0 = (Returned f, w0') ->
  fn_apply f = wrapSegmentInvocation self h.
Proof.
  unfold segmentProxy, new_function, bind, alloc, ret.
  by intros [= <- _].
Qed.

(** With a state current, [callbackProxy] declares the variable at the
    identity it allocates first, holding that state, and returns the closure
    over it. *)
Lemma callbackProxy_makes (self : Tracer) (h f : Fun) (w0 w0' : World)
    (st0 : State) :
  current (context self) w0 = Some st0 ->
  callbackProxy self h w0 = (Returned f, w0') ->
  fn_apply f = wrapCallbackInvocation self h (next_ref w0)
  /\ variables w0' !! next_ref w0 = Some st0
  /\ contexts w0' = contexts w0.
Proof.
  intros Hcur. unfold callbackProxy, bind at 1, get_state.
  unfold current in Hcur. rewrite Hcur.
  unfold bind, new_var, new_function, bind, alloc, ret; simpl.
  intros [= <- <-]; simpl. by rewrite lookup_insert_eq.
Qed.

(** ** The claims *)

(** C6. A [segmentProxy] wrapper invoked while no state is current is the
    handler itself on that call: it applies the handler to the receiver and
    the arguments it was given, in the world it was given, so that no state
    is entered and no transaction is made, and its outcome is the handler's
    outcome. *)
Theorem segmentProxy_no_state_calls_through (self : Tracer) (h f : Fun)
    (w0 w0' : World) (this : Value) (args : list Value) (w : World) :
  segmentProxy self h w0 = (Returned f, w0') ->
  current (context self) w = None ->
  fn_apply f this args w = fn_apply h this args w.
Proof.
  intros Hwrap Hcur. unfold segmentProxy, new_function, bind, alloc, ret in Hwrap.
  injection Hwrap as <- _. simpl. by apply wrapSegmentInvocation_idle.
Qed.

Lemma segmentProxy_no_state_calls_through_witness :
  fn_apply (mkFun 0 (wrapSegmentInvocation tracer0 echo)) (VNum 4) [VNum 2]
    world0
  = (Returned (VNum 4002), world0).
Proof.
  rewrite (segmentProxy_no_state_calls_through tracer0 echo _ world0
             (mkWorld ∅ ∅ 1)); reflexivity.
Defined.

(** C7. [callbackProxy] called while no state is current returns the
    handler it was given, the same function object, and changes nothing: no
    closure is made and no variable is captured. *)
Theorem callbackProxy_no_state_identity (self : Tracer) (h : Fun) (w : World) :
  current (context self) w = None ->
  callbackProxy self h w = (Returned h, w).
Proof.
  intros Hcur. unfold callbackProxy, bind, get_state.
  unfold current in Hcur. by rewrite Hcur.
Qed.

Lemma callbackProxy_no_state_identity_witness :
  callbackProxy tracer0 noop world0 = (Returned noop, world0).
Proof. apply callbackProxy_no_state_identity. reflexivity. Defined.

(** C8. [new Tracer(agent, context)] throws at once when the agent or the
    context is absent ([undefined] or [null]), the agent being checked
    first, and returns the tracer holding both when both are present. *)
Theorem new_Tracer_requires_both (a : JsArg Agent) (c : JsArg ref) (w : World) :
  (js_not a = true ->
     new_Tracer a c w = (Threw (VError "Must be initialized with an agent."), w))
  /\ (js_not a = false -> js_not c = true ->
     new_Tracer a c w = (Threw (VError "Must include shared context."), w))
  /\ (forall a' c', a = ArgObject a' -> c = ArgObject c' ->
     new_Tracer a c w = (Returned (mkTracer 0 a' c'), w)).
Proof.
  repeat split.
  - by destruct a.
  - by destruct a, c.
  - by intros a' c' -> ->.
Qed.

Lemma new_Tracer_requires_both_witness :
  new_Tracer (@ArgNull Agent) (ArgObject 0) world0
    = (Threw (VError "Must be initialized with an agent."), world0)
  /\ new_Tracer (ArgObject factory) (@ArgUndefined ref) world0
    = (Threw (VError "Must include shared context."), world0)
  /\ new_Tracer (ArgObject factory) (ArgObject 0) world0
    = (Returned tracer0, world0).
Proof.
  split; [|split].
  - apply (new_Tracer_requires_both ArgNull (ArgObject 0) world0). reflexivity.
  - apply (new_Tracer_requires_both (ArgObject factory) ArgUndefined world0);
      reflexivity.
  - apply (new_Tracer_requires_both (ArgObject factory) (ArgObject 0) world0);
      reflexivity.
Defined.




(** ** Normal returns *)

Lemma finish_callback_returned (c x : ref) (st : State) (v : Value)
    (w : World) :
  is_Some (variables w !! x) ->
  finish_callback c x (Returned v, w) = finish c st (Returned v, w).
Proof.
  intros [s Hs]. unfold finish_callback, finish, read_var. by rewrite Hs.
Qed.

Lemma frames_finish_returned (c : ref) (st : State) (v : Value) (w : World) :
  frames c (snd (finish c st (Returned v, w))) = tail (frames c w).
Proof. unfold finish. cbn [snd]. apply frames_exit. Qed.

(** C9. Each wrapper applies the original handler to the very receiver and
    arguments of its own call, and when the handler returns normally the
    wrapper returns the same value.  For the closure of [callbackProxy] the
    variable it captured is supposed to exist, as it does from the creation
    of the closure on. *)
Theorem receiver_arguments_result_forwarded (self : Tracer) (h f : Fun)
    (w0 w0' : World) (this : Value) (args : list Value) (w : World) :
  let c := context self in
  (transactionProxy self h w0 = (Returned f, w0') ->
   forall t w1, createTransaction (agent self) w = (Returned t, w1) ->
   let st := built t (root (getTrace t)) h w1 in
   fn_apply f this args w
     = finish c st (fn_apply h this args (installed c st w1))
   /\ forall v w', fn_apply h this args (installed c st w1) = (Returned v, w')
        -> fst (fn_apply f this args w) = Returned v)
  /\ (segmentProxy self h w0 = (Returned f, w0') ->
      forall st0, current c w = Some st0 ->
      let st := built (transaction st0) (segment st0) h w in
      fn_apply f this args w
        = finish c st (fn_apply h this args (installed c st w))
      /\ forall v w', fn_apply h this args (installed c st w) = (Returned v, w')
           -> fst (fn_apply f this args w) = Returned v)
  /\ (segmentProxy self h w0 = (Returned f, w0') ->
      current c w = None ->
      fn_apply f this args w = fn_apply h this args w)
  /\ (forall st0, current c w0 = Some st0 ->
      callbackProxy self h w0 = (Returned f, w0') ->
      forall old, variables w !! next_ref w0 = Some old ->
      let x := next_ref w0 in
      let st := built (transaction old) (segment old) h w in
      fn_apply f this args w
        = finish_callback c x (fn_apply h this args (reassigned c x st w))
      /\ forall v w', fn_apply h this args (reassigned c x st w)
                        = (Returned v, w') ->
           is_Some (variables w' !! x) ->
           fst (fn_apply f this args w) = Returned v).
Proof.
  intros c. split; [|split; [|split]].
  - intros Hf t w1 Ht st.
    rewrite (transactionProxy_makes _ _ _ _ _ Hf).
    rewrite (wrapTransactionInvocation_run _ _ _ _ _ _ _ Ht).
    split; [done|]. intros v w' Hh. fold c st. by rewrite Hh.
  - intros Hf st0 Hcur st.
    rewrite (segmentProxy_makes _ _ _ _ _ Hf).
    rewrite (wrapSegmentInvocation_run _ _ _ _ _ _ Hcur).
    split; [done|]. intros v w' Hh. fold c st. by rewrite Hh.
  - intros Hf Hcur. rewrite (segmentProxy_makes _ _ _ _ _ Hf).
    by apply wrapSegmentInvocation_idle.
  - intros st0 Hcur Hf old Hx x st.
    destruct (callbackProxy_makes _ _ _ _ _ _ Hcur Hf) as (-> & _ & _).
    rewrite (wrapCallbackInvocation_run _ _ _ _ _ _ _ Hx).
    split; [done|]. intros v w' Hh Hsome. fold c x st. rewrite Hh.
    by rewrite (finish_callback_returned _ _ st _ _ Hsome).
Qed.

(** [echo], wrapped by [callbackProxy] while [ambient] is current and
    invoked on the receiver 4 with the argument 2, returns what [echo]
    makes of them. *)
Lemma receiver_arguments_result_forwarded_witness :
  fst (fn_apply (mkFun 11 (wrapCallbackInvocation tracer0 echo 10))
         (VNum 4) [VNum 2] world2)
  = Returned (VNum 4002).
Proof.
  refine (proj2 (proj2 (proj2 (proj2
            (receiver_arguments_result_forwarded tracer0 echo _ world1
               world1_captured (VNum 4) [VNum 2] _))) ambient _ _ ambient _)
            _ _ _ _);
    try reflexivity.
  vm_compute. eauto.
Defined.

(** ** Joining and originating *)

(** C5. A [segmentProxy] wrapper invoked while a state [st0] is current
    builds a State of its own: a new object (its identity is allocated by
    this call, so it is not [st0]) with the transaction and the segment of
    [st0] and the handler.  The handler runs with that State current and
    with the frames of before, [st0] first, untouched beneath it.  When the
    handler returns, having left the Context as it found it, the wrapper
    exits its State and [st0] is current again.  Invoked with no state
    current, the wrapper leaves none current. *)
Theorem segmentProxy_joins_current (self : Tracer) (h f : Fun)
    (w0 w0' : World) (this : Value) (args : list Value) (w : World) :
  let c := context self in
  segmentProxy self h w0 = (Returned f, w0') ->
  (forall st0, current c w = Some st0 ->
   exists st w_in,
     state_id st = next_ref w
     /\ (allocated w st0 -> st <> st0)
     /\ transaction st = transaction st0
     /\ segment st = segment st0
     /\ handler st = fn_ref h
     /\ current c w_in = Some st
     /\ frames c w_in = st :: frames c w
     /\ fn_apply f this args w = finish c st (fn_apply h this args w_in)
     /\ forall v w_out, fn_apply h this args w_in = (Returned v, w_out) ->
          let w' := snd (fn_apply f this args w) in
          fst (fn_apply f this args w) = Returned v
          /\ (frames c w_out = frames c w_in ->
              frames c w' = frames c w /\ current c w' = Some st0))
  /\ (current c w = None ->
      forall v w_out, fn_apply h this args w = (Returned v, w_out) ->
      frames c w_out = frames c w ->
      current c (snd (fn_apply f this args w)) = None).
Proof.
  intros c Hf. rewrite (segmentProxy_makes _ _ _ _ _ Hf). split.
  - intros st0 Hcur.
    exists (built (transaction st0) (segment st0) h w).
    exists (installed c (built (transaction st0) (segment st0) h w) w).
    rewrite (wrapSegmentInvocation_run _ _ _ _ _ _ Hcur). fold c.
    split; [done|]. split.
    { intros [Hid _] Heq. rewrite <- Heq in Hid. simpl in Hid. lia. }
    do 3 (split; [done|]).
    split; [apply current_installed|].
    split; [apply frames_installed|].
    split; [done|].
    intros v w_out Hh w'. subst w'. rewrite Hh.
    split; [done|].
    intros Hkept. rewrite current_frames, frames_finish_returned.
    rewrite Hkept, frames_installed. by split.
  - intros Hcur v w_out Hh Hkept.
    rewrite wrapSegmentInvocation_idle by done. rewrite Hh. simpl.
    by same_current Hkept.
Qed.

(** A handler joined to [ambient] in [world1] runs under a State that is
    not [ambient] and has its transaction and segment. *)
Lemma segmentProxy_joins_current_witness :
  exists st w_in,
    st <> ambient
    /\ transaction st = transaction ambient
    /\ segment st = segment ambient
    /\ current 0 w_in = Some st
    /\ fn_apply (mkFun 0 (wrapSegmentInvocation tracer0 (probe 0)))
         VUndefined [] world1
       = finish 0 st (fn_apply (probe 0) VUndefined [] w_in).
Proof.
  destruct (proj1 (segmentProxy_joins_current tracer0 (probe 0) _ world0
                     (mkWorld ∅ ∅ 1) VUndefined [] world1 eq_refl)
              ambient eq_refl)
    as (st & w_in & _ & Hnew & Ht & Hs & _ & Hcur & _ & Hrun & _).
  exists st, w_in. repeat split; try assumption.
  apply Hnew. unfold allocated; simpl. lia.
Defined.

Lemma factory_makes_new_transactions : makes_new_transactions factory.
Proof.
  intros w. eexists _, _. split; [reflexivity|]. simpl. split; [done|].
  split; [lia|done].
Qed.

Lemma frames_of_contexts (c : ref) (w w' : World) :
  contexts w' = contexts w -> frames c w' = frames c w.
Proof. unfold frames. by intros ->. Qed.

(** C2. Every invocation of a [transactionProxy] wrapper asks the factory
    for a transaction and runs the handler under a State made of that
    transaction, its root segment and the handler, whatever is current at
    the time of the call.  The factory making a new Transaction on each
    call, the transaction that the handler observes is new: it is none of
    the transactions of the states entered before (the ambient one among
    them), and an invocation made at any later time, in a world whose
    allocator has moved on, observes yet another one. *)
Theorem transactionProxy_originates (self : Tracer) (h f : Fun)
    (w0 w0' : World) (this : Value) (args : list Value) (w : World) :
  let c := context self in
  makes_new_transactions (agent self) ->
  transactionProxy self h w0 = (Returned f, w0') ->
  exists t w1 st w_in,
    createTransaction (agent self) w = (Returned t, w1)
    /\ transaction_id t = next_ref w
    /\ transaction st = t
    /\ segment st = root (getTrace t)
    /\ handler st = fn_ref h
    /\ current c w_in = Some st
    /\ frames c w_in = st :: frames c w
    /\ next_ref w < next_ref w_in
    /\ fn_apply f this args w = finish c st (fn_apply h this args w_in)
    /\ (forall old, old ∈ frames c w -> allocated w old ->
        transaction old <> t)
    /\ (forall this' args' w', next_ref w_in <= next_ref w' ->
        exists st' w_in',
          current c w_in' = Some st'
          /\ fn_apply f this' args' w'
             = finish c st' (fn_apply h this' args' w_in')
          /\ transaction st' <> t).
Proof.
  intros c Hnew Hf. rewrite (transactionProxy_makes _ _ _ _ _ Hf).
  destruct (Hnew w) as (t & w1 & Ht & Hid & Hlt & Hctx).
  exists t, w1, (built t (root (getTrace t)) h w1).
  exists (installed c (built t (root (getTrace t)) h w1) w1).
  split; [done|]. do 4 (split; [done|]).
  split; [apply current_installed|].
  split; [by rewrite frames_installed, (frames_of_contexts _ _ _ Hctx)|].
  split; [simpl; lia|].
  split; [by rewrite (wrapTransactionInvocation_run _ _ _ _ _ _ _ Ht)|].
  split.
  - intros old _ [_ Hold] Heq. rewrite Heq in Hold. lia.
  - intros this' args' w' Hlater. simpl in Hlater.
    destruct (Hnew w') as (t' & w1' & Ht' & Hid' & _ & _).
    exists (built t' (root (getTrace t')) h w1').
    exists (installed c (built t' (root (getTrace t')) h w1') w1').
    split; [apply current_installed|].
    split; [by rewrite (wrapTransactionInvocation_run _ _ _ _ _ _ _ Ht')|].
    simpl. intros Heq. rewrite Heq in Hid'. lia.
Qed.

(** Invoked while [ambient], of transaction 7, is current, the wrapper of
    [probe] makes the handler observe another transaction. *)
Lemma transactionProxy_originates_witness :
  exists st w_in,
    current 0 w_in = Some st
    /\ transaction st <> transaction ambient
    /\ fn_apply (mkFun 0 (wrapTransactionInvocation tracer0 (probe 0)))
         VUndefined [] world1
       = finish 0 st (fn_apply (probe 0) VUndefined [] w_in).
Proof.
  destruct (transactionProxy_originates tracer0 (probe 0) _ world0
              (mkWorld ∅ ∅ 1) VUndefined [] world1
              factory_makes_new_transactions eq_refl)
    as (t & w1 & st & w_in & _ & _ & Ht & _ & _ & Hcur & _ & _ & Hrun
        & Hold & _).
  exists st, w_in. repeat split; try assumption.
  rewrite Ht. apply not_eq_sym, Hold.
  - vm_compute. apply list_elem_of_here.
  - unfold allocated; simpl. lia.
Defined.

(** ** No state leaks out of nested wrapped calls *)

Lemma quiet_ret {A : Type} (c : ref) (a : A) : quiet c (ret a).
Proof. intros w. by exists a, w. Qed.

Lemma quiet_bind {A B : Type} (c : ref) (m : M A) (k : A -> M B) :
  quiet c m -> (forall a, quiet c (k a)) -> quiet c (bind m k).
Proof.
  intros Hm Hk w. destruct (Hm w) as (a & w1 & Em & Fm).
  destruct (Hk a w1) as (b & w2 & Ek & Fk).
  exists b, w2. unfold bind. rewrite Em. split; [done|congruence].
Qed.

Lemma proxy_makes (k : Kind) (self : Tracer) (h : Fun) (w : World) :
  proxy k self h w
  = (Returned (mkFun (next_ref w) (wrapInvocation k self h)), snd (alloc w)).
Proof. by destruct k. Qed.

(** A wrapper of a handler that returns normally and keeps the Context
    balanced returns normally and keeps the Context balanced. *)
Lemma wrapInvocation_quiet (k : Kind) (self : Tracer) (h : Fun)
    (this : Value) (args : list Value) :
  quiet (context self) (createTransaction (agent self)) ->
  quiet (context self) (fn_apply h this args) ->
  quiet (context self) (wrapInvocation k self h this args).
Proof.
  intros Hagent Hh w. destruct k; simpl.
  - destruct (Hagent w) as (t & w1 & Et & Ft).
    rewrite (wrapTransactionInvocation_run _ _ _ _ _ _ _ Et).
    destruct (Hh (installed (context self)
                    (built t (root (getTrace t)) h w1) w1))
      as (v & w2 & Eh & Fh).
    rewrite Eh. eexists _, _. split; [reflexivity|].
    by rewrite frames_exit, Fh, frames_installed.
  - destruct (current (context self) w) as [st0|] eqn:Hcur.
    + rewrite (wrapSegmentInvocation_run _ _ _ _ _ _ Hcur).
      destruct (Hh (installed (context self)
                      (built (transaction st0) (segment st0) h w) w))
        as (v & w2 & Eh & Fh).
      rewrite Eh. eexists _, _. split; [reflexivity|].
      by rewrite frames_exit, Fh, frames_installed.
    + rewrite wrapSegmentInvocation_idle by done. apply Hh.
Qed.

Lemma script_body_quiet (self : Tracer) (s : Script) :
  quiet (context self) (createTransaction (agent self)) ->
  calm (context self) s ->
  quiet (context self) (script_body self s).
Proof.
  intros Hagent. induction s as [v|code rest IH|k inner IHi this args rest IHr];
    simpl.
  - intros _. apply quiet_ret.
  - intros [Hcode Hrest]. apply quiet_bind; [done|]. intros _. by apply IH.
  - intros [Hinner Hrest] w.
    unfold bind at 1, new_function, bind at 1, alloc, ret.
    unfold bind at 1. rewrite proxy_makes. cbn [fn_apply].
    assert (quiet (context self)
              (wrapInvocation k self
                 (mkFun (next_ref w) (fun _ _ => script_body self inner))
                 this args ;;;
               script_body self rest)) as Hq.
    { apply quiet_bind.
      - apply wrapInvocation_quiet; [done|]. by apply IHi.
      - intros _. by apply IHr. }
    destruct (Hq (snd (alloc (snd (alloc w))))) as (a & w' & Ea & Fa).
    by exists a, w'.
Qed.

(** C4. A wrapped call, by [transactionProxy] or by [segmentProxy], of a
    handler whose body nests further wrapped calls to any depth, where the
    factory and the handlers' own code return normally and do not themselves
    enter or exit, returns normally and leaves the frames of the Context as
    they were.  Started with no state current, it ends with none. *)
Theorem nested_calls_leave_no_state (k : Kind) (self : Tracer) (s : Script)
    (this : Value) (args : list Value) (w : World) :
  let c := context self in
  quiet c (createTransaction (agent self)) ->
  calm c s ->
  exists v w',
    wrapped_call k self s this args w = (Returned v, w')
    /\ frames c w' = frames c w
    /\ (current c w = None -> current c w' = None).
Proof.
  intros c Hagent Hcalm. unfold wrapped_call.
  unfold bind at 1, new_function, bind at 1, alloc, ret.
  unfold bind. rewrite proxy_makes. cbn [fn_apply].
  destruct (wrapInvocation_quiet k self
              (mkFun (next_ref w) (fun _ _ => script_body self s)) this args
              Hagent (script_body_quiet self s Hagent Hcalm)
              (snd (alloc (snd (alloc w)))))
    as (v & w' & Ew & Fw).
  exists v, w'. split; [done|]. split; [done|].
  intros Hnone. by rewrite (current_of_frames c w w').
Qed.

Lemma quiet_factory (c : ref) : quiet c (createTransaction factory).
Proof. intros w. eexists _, _. split; reflexivity. Qed.

(** An origin whose handler calls a joined handler, which calls an origin
    again, from the empty world. *)
Lemma nested_calls_leave_no_state_witness :
  exists v w',
    wrapped_call Origin tracer0
      (Invoke Join
         (Invoke Origin (Return (VNum 1)) VNull []
            (Run (ret tt) (Return (VNum 2))))
         VNull [VNum 5] (Return (VNum 3)))
      VUndefined [] world0
    = (Returned v, w')
    /\ current 0 w' = None.
Proof.
  destruct (nested_calls_leave_no_state Origin tracer0
              (Invoke Join
                 (Invoke Origin (Return (VNum 1)) VNull []
                    (Run (ret tt) (Return (VNum 2))))
                 VNull [VNum 5] (Return (VNum 3)))
              VUndefined [] world0 (quiet_factory 0))
    as (v & w' & Hrun & _ & Hnone).
  - simpl. repeat split. apply quiet_ret.
  - exists v, w'. split; [exact Hrun|]. apply Hnone. reflexivity.
Defined.

(** ** The state captured by [callbackProxy] *)

(** C3. A function wrapped by [callbackProxy] while [st0] is current keeps
    [st0] in its variable.  Invoked later in any world at all that still
    holds that variable, whatever is then current in the Context, another
    state or none, the wrapper runs the handler under a State that has the
    transaction and the segment of [st0], entered on top of the frames of
    the moment. *)
Theorem callbackProxy_installs_captured (self : Tracer) (h f : Fun)
    (w0 w0' : World) (st0 : State) :
  let c := context self in
  current c w0 = Some st0 ->
  callbackProxy self h w0 = (Returned f, w0') ->
  exists x,
    variables w0' !! x = Some st0
    /\ forall this args w, variables w !! x = Some st0 ->
       exists st w_in,
         transaction st = transaction st0
         /\ segment st = segment st0
         /\ handler st = fn_ref h
         /\ current c w_in = Some st
         /\ frames c w_in = st :: frames c w
         /\ fn_apply f this args w
            = finish_callback c x (fn_apply h this args w_in).
Proof.
  intros c Hcur Hf.
  destruct (callbackProxy_makes _ _ _ _ _ _ Hcur Hf) as (-> & Hvar & _).
  exists (next_ref w0). split; [done|]. intros this args w Hx.
  exists (built (transaction st0) (segment st0) h w).
  exists (reassigned c (next_ref w0)
            (built (transaction st0) (segment st0) h w) w).
  do 3 (split; [done|]).
  split; [apply current_reassigned|].
  split; [apply frames_reassigned|].
  by rewrite (wrapCallbackInvocation_run _ _ _ _ _ _ _ Hx).
Qed.

(** [probe] is wrapped while [ambient] is current and invoked in [world2],
    where [other] is: the State it runs under has the transaction of
    [ambient]. *)
Lemma callbackProxy_installs_captured_witness :
  exists st w_in,
    transaction st = transaction ambient
    /\ current 0 w_in = Some st
    /\ frames 0 w_in = [st; other]
    /\ fn_apply (mkFun 11 (wrapCallbackInvocation tracer0 (probe 0) 10))
         VUndefined [] world2
       = finish_callback 0 10 (fn_apply (probe 0) VUndefined [] w_in).
Proof.
  destruct (callbackProxy_installs_captured tracer0 (probe 0) _ world1
              world1_captured ambient eq_refl eq_refl)
    as (x & Hvar & Hcall).
  assert (x = 10) as ->.
  { destruct (decide (x = 10)) as [|Hne]; [done|].
    unfold world1_captured in Hvar. cbn [variables] in Hvar.
    by rewrite lookup_singleton_ne in Hvar. }
  destruct (Hcall VUndefined [] world2)
    as (st & w_in & Ht & _ & _ & Hcur & Hfr & Hrun).
  - apply lookup_singleton_eq.
  - exists st, w_in. repeat split; assumption.
Defined.

(** C10. The variable captured by [callbackProxy] is reassigned by every
    invocation, yet always to a State of the transaction [T] and the segment
    [S] that were current at wrap time.  That is an invariant: it holds
    once [callbackProxy] returns; an invocation made while it holds builds a
    new State of [T] and [S], stores it in the variable, which keeps the
    invariant, and runs the handler under it; and when the invariant holds
    as the handler finishes, it holds after the invocation.  So every
    invocation, not only the first, observes [T] and [S]. *)
Theorem callbackProxy_never_drifts (self : Tracer) (h f : Fun)
    (w0 w0' : World) (st0 : State) :
  let c := context self in
  let T := transaction st0 in
  let S := segment st0 in
  current c w0 = Some st0 ->
  callbackProxy self h w0 = (Returned f, w0') ->
  exists x,
    tracks x T S w0'
    /\ forall this args w, tracks x T S w ->
       exists st w_in,
         state_id st = next_ref w
         /\ transaction st = T
         /\ segment st = S
         /\ variables w_in !! x = Some st
         /\ tracks x T S w_in
         /\ current c w_in = Some st
         /\ fn_apply f this args w
            = finish_callback c x (fn_apply h this args w_in)
         /\ (forall r w_out, fn_apply h this args w_in = (r, w_out) ->
             tracks x T S w_out ->
             fst (fn_apply f this args w) = r
             /\ tracks x T S (snd (fn_apply f this args w))).
Proof.
  intros c T S Hcur Hf.
  destruct (callbackProxy_makes _ _ _ _ _ _ Hcur Hf) as (-> & Hvar & _).
  exists (next_ref w0). split; [by exists st0|].
  intros this args w (old & Hx & HT & HS).
  set (st := built (transaction old) (segment old) h w).
  exists st, (reassigned c (next_ref w0) st w).
  split; [done|]. split; [done|]. split; [done|].
  split; [apply variables_reassigned|].
  split; [exists st; by rewrite variables_reassigned|].
  split; [apply current_reassigned|].
  rewrite (wrapCallbackInvocation_run _ _ _ _ _ _ _ Hx). fold c st.
  split; [done|].
  intros r w_out Hh (s & Hs & HsT & HsS). rewrite Hh.
  unfold finish_callback, read_var. rewrite Hs.
  destruct r as [v|e]; (split; [done|]); by exists s.
Qed.

(** In [world3] the variable holds the State that an earlier invocation
    made: the next invocation runs its handler under the transaction and
    the segment of [ambient] again. *)
Lemma callbackProxy_never_drifts_witness :
  exists st w_in,
    transaction st = transaction ambient
    /\ segment st = segment ambient
    /\ current 0 w_in = Some st
    /\ fn_apply (mkFun 11 (wrapCallbackInvocation tracer0 (probe 0) 10))
         VUndefined [] world3
       = finish_callback 0 10 (fn_apply (probe 0) VUndefined [] w_in).
Proof.
  destruct (callbackProxy_never_drifts tracer0 (probe 0) _ world1
              world1_captured ambient eq_refl eq_refl)
    as (x & (s0 & Hvar & _ & _) & Hcall).
  assert (x = 10) as ->.
  { destruct (decide (x = 10)) as [|Hne]; [done|].
    unfold world1_captured in Hvar. cbn [variables] in Hvar.
    by rewrite lookup_singleton_ne in Hvar. }
  destruct (Hcall VUndefined [] world3)
    as (st & w_in & _ & Ht & Hs & _ & _ & Hcur & Hrun & _).
  - eexists. split; [apply lookup_singleton_eq|]. split; reflexivity.
  - exists st, w_in. repeat split; assumption.
Defined.

(** Invoked [n] times in a row, the closure over [probe] reports the
    captured transaction [n] times. *)
Lemma probe_reports_captured_every_time (self : Tracer) (r x : ref)
    (T : Transaction) (S : Segment) (this : Value) (args : list Value)
    (n : nat) (w : World) :
  tracks x T S w ->
  exists w',
    call_times (mkFun r (wrapCallbackInvocation self (probe (context self)) x))
      this args n w
    = (Returned (replicate n (VRef (transaction_id T))), w')
    /\ tracks x T S w'.
Proof.
  revert w. induction n as [|n IH]; intros w Htracks.
  - by exists w.
  - destruct Htracks as (old & Hx & HT & HS). simpl.
    unfold bind at 1. rewrite (wrapCallbackInvocation_run _ _ _ _ _ _ _ Hx).
    set (st := built (transaction old) (segment old) (probe (context self)) w).
    set (w_in := reassigned (context self) x st w).
    assert (fn_apply (probe (context self)) this args w_in
            = (Returned (VRef (transaction_id T)), w_in)) as ->.
    { unfold probe, fn_apply, bind, get_state, ret.
      fold (current (context self) w_in). unfold w_in.
      rewrite current_reassigned. simpl. by rewrite HT. }
    unfold finish_callback, read_var. unfold w_in at 1.
    rewrite variables_reassigned.
    destruct (IH (snd (exit (context self) st w_in))) as (w' & Hrun & Hkeep).
    { exists st. simpl. by rewrite lookup_insert_eq. }
    exists w'. unfold bind. by rewrite Hrun.
Qed.

(** ** Scenarios of the specification *)

(** [transactionProxy(probe)()] twice: two transactions. *)
Example origin_twice :
  fst ((let* f := transactionProxy tracer0 (probe 0) in
        let* a := fn_apply f VUndefined [] in
        let* b := fn_apply f VUndefined [] in
        ret [a; b]) world0)
  = Returned [VRef 1; VRef 4].
Proof. reflexivity. Qed.

(** [transactionProxy(outer)()] where [outer] calls
    [segmentProxy(probe)()]: the inner handler observes the transaction of
    the outer call, and nothing is current afterwards. *)
Example origin_then_join :
  let r := (let* f := transactionProxy tracer0 (joiner tracer0) in
            fn_apply f VUndefined []) world0 in
  fst r = Returned (VRef 1) /\ current 0 (snd r) = None.
Proof. split; reflexivity. Qed.

(** [callbackProxy(probe)] made under [ambient] and invoked after the
    Context was emptied: the handler observes the transaction of
    [ambient], and the Context is empty again afterwards. *)
Example callback_after_exit :
  let r := (let* f := callbackProxy tracer0 (probe 0) in
            exit 0 ambient ;;;
            fn_apply f VUndefined []) world1 in
  fst r = Returned (VRef 7) /\ current 0 (snd r) = None.
Proof. split; reflexivity. Qed.

(** ** Further properties of the wrappers *)

(** X1. When the factory throws, the wrapper of [transactionProxy] throws
    the same error and leaves the world as the factory left it: no State is
    built, nothing is entered and the handler is not invoked, whatever the
    handler is. *)
Theorem factory_throw_skips_handler (self : Tracer) (h f : Fun)
    (w0 w0' : World) (this : Value) (args : list Value) (w w1 : World)
    (e : Value) :
  transactionProxy self h w0 = (Returned f, w0') ->
  createTransaction (agent self) w = (Threw e, w1) ->
  fn_apply f this args w = (Threw e, w1).
Proof.
  intros Hf He. rewrite (transactionProxy_makes _ _ _ _ _ Hf).
  unfold wrapTransactionInvocation, bind. by rewrite He.
Qed.

(** A tracer whose agent cannot make a transaction: even [echo], which
    never throws, is not reached. *)
Lemma factory_throw_skips_handler_witness :
  fn_apply (mkFun 0 (wrapTransactionInvocation
                       (mkTracer 0 (mkAgent (throw (VError "down"))) 0) echo))
    (VNum 4) [VNum 2] world1
  = (Threw (VError "down"), world1).
Proof.
  apply (factory_throw_skips_handler
           (mkTracer 0 (mkAgent (throw (VError "down"))) 0) echo _
           world0 (mkWorld ∅ ∅ 1));
    reflexivity.
Defined.



(** X3. The State left behind by a throw is picked up by later calls.
    After a [transactionProxy] wrapper has thrown, its handler having left
    the Context as it found it, a [segmentProxy] wrapper invoked next does
    not call its handler directly: it runs it under a State of the
    transaction of the failed call.  [callbackProxy] called then does not
    return its handler either: it captures the State left behind. *)
Theorem stale_state_is_joined (self : Tracer) (h g f fg : Fun)
    (w0 w0' wg wg' : World) (this this' : Value) (args args' : list Value)
    (w w1 w_thrown : World) (t : Transaction) (e : Value) :
  let c := context self in
  let st := built t (root (getTrace t)) h w1 in
  let st' := built t (root (getTrace t)) g w_thrown in
  transactionProxy self h w0 = (Returned f, w0') ->
  segmentProxy self g wg = (Returned fg, wg') ->
  createTransaction (agent self) w = (Returned t, w1) ->
  fn_apply h this args (installed c st w1) = (Threw e, w_thrown) ->
  frames c w_thrown = frames c (installed c st w1) ->
  fn_apply f this args w = (Threw e, w_thrown)
  /\ fn_apply fg this' args' w_thrown
     = finish c st' (fn_apply g this' args' (installed c st' w_thrown))
  /\ exists fc w',
       callbackProxy self g w_thrown = (Returned fc, w')
       /\ variables w' !! next_ref w_thrown = Some st
       /\ fn_apply fc = wrapCallbackInvocation self g (next_ref w_thrown).
Proof.
  intros c st st' Hf Hfg Ht Hh Hkept.
  assert (current c w_thrown = Some st) as Hcur.
  { same_current Hkept. apply current_installed. }
  split; [|split].
  - rewrite (transactionProxy_makes _ _ _ _ _ Hf).
    rewrite (wrapTransactionInvocation_run _ _ _ _ _ _ _ Ht).
    fold c st. by rewrite Hh.
  - rewrite (segmentProxy_makes _ _ _ _ _ Hfg).
    by rewrite (wrapSegmentInvocation_run _ _ _ _ _ _ Hcur).
  - unfold callbackProxy, bind at 1, get_state.
    unfold current in Hcur. fold c. rewrite Hcur.
    unfold bind, new_var, new_function, bind, alloc, ret; simpl.
    eexists _, _. split; [reflexivity|]. simpl.
    by rewrite lookup_insert_eq.
Qed.

(** [thrower] in the empty world, then [probe] through [segmentProxy]:
    [probe] reports the transaction 0 of the failed call, though no
    transaction is in progress. *)
Lemma stale_state_is_joined_witness :
  let w_thrown :=
    installed 0 (built (mkTransaction 0 (mkTrace (mkSegment 1))) (mkSegment 1)
                   thrower (mkWorld ∅ ∅ 2)) (mkWorld ∅ ∅ 2) in
  fn_apply (mkFun 0 (wrapTransactionInvocation tracer0 thrower))
    VUndefined [] world0 = (Threw (VError "boom"), w_thrown)
  /\ fst (fn_apply (mkFun 0 (wrapSegmentInvocation tracer0 (probe 0)))
            VUndefined [] w_thrown)
     = Returned (VRef 0).
Proof.
  intros w_thrown.
  destruct (stale_state_is_joined tracer0 thrower (probe 0) _ _
              world0 (mkWorld ∅ ∅ 1) world0 (mkWorld ∅ ∅ 1)
              VUndefined VUndefined [] [] world0 (mkWorld ∅ ∅ 2) w_thrown
              (mkTransaction 0 (mkTrace (mkSegment 1))) (VError "boom")
              eq_refl eq_refl eq_refl eq_refl eq_refl)
    as (Hthrown & Hjoined & _).
  split; [exact Hthrown|].
  etrans; [exact (f_equal fst Hjoined)|reflexivity].
Defined.

(** ** Towers of wrappers *)

Lemma wrap_times_returns (self : Tracer) (n : nat) (h : Fun) (w : World) :
  exists f w', wrap_times self n h w = (Returned f, w').
Proof.
  revert w. induction n as [|n IH]; intros w; simpl.
  - by exists h, w.
  - destruct (IH w) as (f & w' & Hf). unfold bind. rewrite Hf.
    by eexists _, _.
Qed.

Lemma wrap_times_contexts (self : Tracer) (n : nat) (h f : Fun)
    (w w' : World) :
  wrap_times self n h w = (Returned f, w') -> contexts w' = contexts w.
Proof.
  revert f w'. induction n as [|n IH]; intros f w'; simpl.
  - by intros [= _ <-].
  - unfold bind at 1.
    destruct (wrap_times self n h w) as [[f'|e'] w''] eqn:Hf'; [|done].
    unfold transactionProxy, new_function, bind, alloc, ret.
    intros [= _ <-]. simpl. by apply (IH f').
Qed.

(** X4. Every level of wrapping leaks one frame on a throw.  When a handler
    that throws is wrapped [n] times over by [transactionProxy] and the
    outermost wrapper is invoked, the error comes out unchanged and [n]
    States of the call are left on top of the frames of before. *)
Theorem nested_throw_leaks_every_level (self : Tracer) (n : nat) (h f : Fun)
    (w0 w0' : World) (this : Value) (args : list Value) (w : World)
    (e : Value) :
  let c := context self in
  quiet c (createTransaction (agent self)) ->
  (forall this' args', throws c e (fn_apply h this' args')) ->
  wrap_times self n h w0 = (Returned f, w0') ->
  exists w' leaked,
    fn_apply f this args w = (Threw e, w')
    /\ frames c w' = (leaked ++ frames c w)%list
    /\ List.length leaked = n.
Proof.
  intros c Hagent Hh. revert f w0 w0' this args w.
  induction n as [|n IH]; intros f w0 w0' this args w; simpl.
  - intros [= <- _]. destruct (Hh this args w) as (w' & Hrun & Hfr).
    by exists w', [].
  - unfold bind at 1.
    destruct (wrap_times self n h w0) as [[f'|e'] w0''] eqn:Hf'; [|done].
    intros Hf. rewrite (transactionProxy_makes _ _ _ _ _ Hf).
    destruct (Hagent w) as (t & w1 & Ht & Hfr1).
    rewrite (wrapTransactionInvocation_run _ _ _ _ _ _ _ Ht). fold c.
    set (st := built t (root (getTrace t)) f' w1).
    destruct (IH f' w0 w0'' this args (installed c st w1) Hf')
      as (w' & leaked & Hrun & Hfr & Hlen).
    rewrite Hrun. exists w', (leaked ++ [st])%list. split; [done|]. split.
    + by rewrite Hfr, frames_installed, Hfr1, <- app_assoc.
    + rewrite length_app. simpl. lia.
Qed.

Lemma thrower_throws (c : ref) (this : Value) (args : list Value) :
  throws c (VError "boom") (fn_apply thrower this args).
Proof. intros w. by exists w. Qed.

(** [thrower] under three wrappers, invoked while [ambient] is current:
    three frames are left above it. *)
Lemma nested_throw_leaks_every_level_witness :
  exists w' leaked,
    (let* f := wrap_times tracer0 3 thrower in
     fn_apply f VUndefined []) world1 = (Threw (VError "boom"), w')
    /\ frames 0 w' = (leaked ++ [ambient])%list
    /\ List.length leaked = 3.
Proof.
  destruct (wrap_times_returns tracer0 3 thrower world1) as (f & w & Hf).
  destruct (nested_throw_leaks_every_level tracer0 3 thrower f world1 w
              VUndefined [] w (VError "boom") (quiet_factory 0)
              (thrower_throws 0) Hf)
    as (w' & leaked & Hrun & Hfr & Hlen).
  exists w', leaked. unfold bind. rewrite Hf. split; [exact Hrun|].
  split; [|exact Hlen]. etrans; [exact Hfr|]. f_equal.
  apply (frames_of_contexts 0 world1 w).
  exact (wrap_times_contexts _ _ _ _ _ _ Hf).
Defined.

(** ** Wrap time *)

(** X5. Wrapping does nothing but make a function.  [transactionProxy] and
    [segmentProxy] always return a new function object, also when no state
    is current, where [callbackProxy] returns the handler itself; none of
    the three proxies enters or exits a Context at wrap time, and the world
    they leave does not depend on the handler, which is not invoked. *)
Theorem wrapping_is_inert (self : Tracer) (h : Fun) (w0 : World) :
  (forall k, exists f,
     proxy k self h w0 = (Returned f, snd (alloc w0))
     /\ fn_ref f = next_ref w0
     /\ (fn_ref h < next_ref w0 -> f <> h))
  /\ (exists f w0',
        callbackProxy self h w0 = (Returned f, w0')
        /\ contexts w0' = contexts w0
        /\ forall h', snd (callbackProxy self h' w0) = w0').
Proof.
  split.
  - intros k. rewrite proxy_makes. eexists. split; [reflexivity|].
    split; [reflexivity|]. intros Hlt Heq. rewrite <- Heq in Hlt.
    simpl in Hlt. lia.
  - unfold callbackProxy, bind at 1, get_state.
    destruct (state (contexts w0 !!! context self)) as [st|] eqn:Hst.
    + eexists _, _. split; [reflexivity|]. split; [reflexivity|].
      intros h'. unfold callbackProxy, bind at 1, get_state.
      by rewrite Hst.
    + exists h, w0. split; [reflexivity|]. split; [reflexivity|].
      intros h'. unfold callbackProxy, bind at 1, get_state.
      by rewrite Hst.
Qed.

(** With no state current, [segmentProxy] still wraps [noop]. *)
Lemma wrapping_is_inert_witness :
  exists f,
    segmentProxy tracer0 noop (mkWorld ∅ ∅ 200)
      = (Returned f, mkWorld ∅ ∅ 201)
    /\ f <> noop.
Proof.
  destruct (proj1 (wrapping_is_inert tracer0 noop (mkWorld ∅ ∅ 200)) Join)
    as (f & Hf & _ & Hnew).
  exists f. split; [exact Hf|]. apply Hnew. simpl. lia.
Defined.

(** X6. [segmentProxy] and [callbackProxy] never create a transaction: the
    closures they make, and [callbackProxy] itself, do not use the agent at
    all.  Two tracers on the same Context behave alike there, whatever
    their agents are. *)
Theorem join_and_callback_ignore_agent (self self' : Tracer) (h : Fun)
    (x : ref) (this : Value) (args : list Value) (w : World) :
  context self = context self' ->
  wrapSegmentInvocation self h this args w
    = wrapSegmentInvocation self' h this args w
  /\ wrapCallbackInvocation self h x this args w
     = wrapCallbackInvocation self' h x this args w
  /\ snd (callbackProxy self h w) = snd (callbackProxy self' h w).
Proof.
  intros Hctx.
  unfold wrapSegmentInvocation, wrapCallbackInvocation, callbackProxy.
  rewrite Hctx. repeat split.
  unfold bind at 1 3, get_state.
  by destruct (state (contexts w !!! context self')).
Qed.

(** A tracer whose agent only throws joins [ambient] as [tracer0] does. *)
Lemma join_and_callback_ignore_agent_witness :
  wrapSegmentInvocation (mkTracer 5 (mkAgent (throw (VError "down"))) 0)
    (probe 0) VUndefined [] world1
  = wrapSegmentInvocation tracer0 (probe 0) VUndefined [] world1.
Proof.
  apply (join_and_callback_ignore_agent
           (mkTracer 5 (mkAgent (throw (VError "down"))) 0) tracer0
           (probe 0) 0 VUndefined [] world1).
  reflexivity.
Defined.

(** ** Closures side by side *)

Lemma variables_reassigned_ne (c x y : ref) (st : State) (w : World) :
  y <> x -> variables (reassigned c x st w) !! y = variables w !! y.
Proof. intros Hne. unfold reassigned; simpl. by rewrite lookup_insert_ne. Qed.

Lemma variables_finish_callback (c x : ref) (r : Outcome Value)
    (w : World) :
  variables (snd (finish_callback c x (r, w))) = variables w.
Proof.
  unfold finish_callback, read_var.
  destruct r as [v|e]; [|done]. by destruct (variables w !! x).
Qed.

Lemma callbackProxy_allocates (self : Tracer) (h f : Fun) (w0 w0' : World)
    (st0 : State) :
  current (context self) w0 = Some st0 ->
  callbackProxy self h w0 = (Returned f, w0') ->
  next_ref w0' = S (S (next_ref w0)).
Proof.
  intros Hcur. unfold callbackProxy, bind at 1, get_state.
  unfold current in Hcur. rewrite Hcur.
  unfold bind, new_var, new_function, bind, alloc, ret; simpl.
  by intros [= _ <-].
Qed.

(** X7. Every call of [callbackProxy] declares a variable of its own, and
    an invocation of a closure assigns to no other.  For two closures, the
    second made after the first, the variable of the second is another one
    than that of the first; an invocation of the first hands its handler a
    world in which the variable of the second holds what it held, and adds
    no assignment after the handler is done. *)
Theorem closures_do_not_share_state (self : Tracer) (h1 h2 f1 f2 : Fun)
    (w1 w1' w2 w2' : World) (st1 st2 : State)
    (this : Value) (args : list Value) (w : World) (old : State) :
  let c := context self in
  let x1 := next_ref w1 in
  let x2 := next_ref w2 in
  let st := built (transaction old) (segment old) h1 w in
  current c w1 = Some st1 ->
  callbackProxy self h1 w1 = (Returned f1, w1') ->
  next_ref w1' <= next_ref w2 ->
  current c w2 = Some st2 ->
  callbackProxy self h2 w2 = (Returned f2, w2') ->
  variables w !! x1 = Some old ->
  fn_apply f2 = wrapCallbackInvocation self h2 x2
  /\ x2 <> x1
  /\ variables (reassigned c x1 st w) !! x2 = variables w !! x2
  /\ fn_apply f1 this args w
     = finish_callback c x1 (fn_apply h1 this args (reassigned c x1 st w))
  /\ forall r w_out,
       fn_apply h1 this args (reassigned c x1 st w) = (r, w_out) ->
       variables (snd (fn_apply f1 this args w)) = variables w_out.
Proof.
  intros c x1 x2 st Hcur1 Hf1 Hlater Hcur2 Hf2 Hx.
  destruct (callbackProxy_makes _ _ _ _ _ _ Hcur2 Hf2) as (Hf2' & _ & _).
  assert (x2 <> x1) as Hne.
  { rewrite (callbackProxy_allocates _ _ _ _ _ _ Hcur1 Hf1) in Hlater.
    unfold x1, x2. lia. }
  destruct (callbackProxy_makes _ _ _ _ _ _ Hcur1 Hf1) as (-> & _ & _).
  split; [done|]. split; [done|].
  split; [by apply variables_reassigned_ne|].
  rewrite (wrapCallbackInvocation_run _ _ _ _ _ _ _ Hx). fold c x1 st.
  split; [done|]. intros r w_out Hh. rewrite Hh.
  apply variables_finish_callback.
Qed.

(** Two closures made in a row under [ambient], for the variables 10 and
    12: the second variable is not the first. *)
Lemma closures_do_not_share_state_witness :
  12 <> 10
  /\ fn_apply (mkFun 11 (wrapCallbackInvocation tracer0 echo 10))
       (VNum 4) [VNum 2]
       (mkWorld {[ 0 := mkContext [ambient] ]}
                {[ 10 := ambient; 12 := other ]} 14)
     = finish_callback 0 10
         (fn_apply echo (VNum 4) [VNum 2]
            (reassigned 0 10
               (built (transaction ambient) (segment ambient) echo
                  (mkWorld {[ 0 := mkContext [ambient] ]}
                           {[ 10 := ambient; 12 := other ]} 14))
               (mkWorld {[ 0 := mkContext [ambient] ]}
                        {[ 10 := ambient; 12 := other ]} 14))).
Proof.
  destruct (closures_do_not_share_state tracer0 echo (probe 0)
              (mkFun 11 (wrapCallbackInvocation tracer0 echo 10))
              (mkFun 13 (wrapCallbackInvocation tracer0 (probe 0) 12))
              world1 world1_captured world1_captured
              (mkWorld {[ 0 := mkContext [ambient] ]}
                       {[ 10 := ambient; 12 := ambient ]} 14)
              ambient ambient (VNum 4) [VNum 2]
              (mkWorld {[ 0 := mkContext [ambient] ]}
                       {[ 10 := ambient; 12 := other ]} 14)
              ambient eq_refl eq_refl)
    as (_ & Hne & _ & Hrun & _).
  - simpl. lia.
  - reflexivity.
  - reflexivity.
  - reflexivity.
  - split; [exact Hne|exact Hrun].
Defined.

(** ** A joined call inside a wrapped handler *)

(** What the handler [calling Join] does when a state is current. *)
Lemma calling_join_run (self : Tracer) (r : ref) (g : Fun)
    (this' : Value) (args' : list Value) (this : Value) (args : list Value)
    (w : World) (st : State) :
  current (context self) w = Some st ->
  let st_g := built (transaction st) (segment st) g (snd (alloc w)) in
  fn_apply (calling Join self r g this' args') this args w
  = finish (context self) st_g
      (fn_apply g this' args' (installed (context self) st_g (snd (alloc w)))).
Proof.
  intros Hcur st_g. unfold calling, fn_apply at 1, bind.
  rewrite proxy_makes. cbn [fn_apply wrapInvocation].
  by rewrite (wrapSegmentInvocation_run _ _ _ _ (snd (alloc w)) st).
Qed.

(** X8. A handler that runs under any of the three wrappers and invokes a
    [segmentProxy]-wrapped function [g] makes [g] run under a State of the
    wrapper's own transaction and segment: the new transaction and its root
    segment under [transactionProxy], those of the current state under
    [segmentProxy], the captured ones under [callbackProxy].  That State is
    entered on top of the wrapper's, and both are exited on the way out. *)
Theorem inner_join_inherits (self : Tracer) (r : ref) (g : Fun)
    (this' : Value) (args' : list Value) (this : Value) (args : list Value)
    (w : World) :
  let c := context self in
  let h := calling Join self r g this' args' in
  (forall t w1, createTransaction (agent self) w = (Returned t, w1) ->
   exists st st_g w_g,
     transaction st_g = t
     /\ segment st_g = root (getTrace t)
     /\ handler st_g = fn_ref g
     /\ current c w_g = Some st_g
     /\ frames c w_g = st_g :: st :: frames c w1
     /\ wrapTransactionInvocation self h this args w
        = finish c st (finish c st_g (fn_apply g this' args' w_g)))
  /\ (forall st0, current c w = Some st0 ->
      exists st st_g w_g,
        transaction st_g = transaction st0
        /\ segment st_g = segment st0
        /\ handler st_g = fn_ref g
        /\ current c w_g = Some st_g
        /\ frames c w_g = st_g :: st :: frames c w
        /\ wrapSegmentInvocation self h this args w
           = finish c st (finish c st_g (fn_apply g this' args' w_g)))
  /\ (forall x old, variables w !! x = Some old ->
      exists st st_g w_g,
        transaction st_g = transaction old
        /\ segment st_g = segment old
        /\ handler st_g = fn_ref g
        /\ current c w_g = Some st_g
        /\ frames c w_g = st_g :: st :: frames c w
        /\ wrapCallbackInvocation self h x this args w
           = finish_callback c x
               (finish c st_g (fn_apply g this' args' w_g))).
Proof.
  intros c h. split; [|split].
  - intros t w1 Ht.
    set (st := built t (root (getTrace t)) h w1).
    set (w_h := installed c st w1).
    set (st_g := built (transaction st) (segment st) g (snd (alloc w_h))).
    exists st, st_g, (installed c st_g (snd (alloc w_h))).
    do 3 (split; [done|]).
    split; [apply current_installed|].
    split; [by rewrite frames_installed, frames_alloc; unfold w_h;
              rewrite frames_installed|].
    rewrite (wrapTransactionInvocation_run _ _ _ _ _ _ _ Ht). fold c st w_h.
    unfold h. by rewrite (calling_join_run _ _ _ _ _ _ _ w_h st
                            (current_installed c st w1)).
  - intros st0 Hcur.
    set (st := built (transaction st0) (segment st0) h w).
    set (w_h := installed c st w).
    set (st_g := built (transaction st) (segment st) g (snd (alloc w_h))).
    exists st, st_g, (installed c st_g (snd (alloc w_h))).
    do 3 (split; [done|]).
    split; [apply current_installed|].
    split; [by rewrite frames_installed, frames_alloc; unfold w_h;
              rewrite frames_installed|].
    rewrite (wrapSegmentInvocation_run _ _ _ _ _ _ Hcur). fold c st w_h.
    unfold h. by rewrite (calling_join_run _ _ _ _ _ _ _ w_h st
                            (current_installed c st w)).
  - intros x old Hx.
    set (st := built (transaction old) (segment old) h w).
    set (w_h := reassigned c x st w).
    set (st_g := built (transaction st) (segment st) g (snd (alloc w_h))).
    exists st, st_g, (installed c st_g (snd (alloc w_h))).
    do 3 (split; [done|]).
    split; [apply current_installed|].
    split; [by rewrite frames_installed, frames_alloc; unfold w_h;
              rewrite frames_reassigned|].
    rewrite (wrapCallbackInvocation_run _ _ _ _ _ _ _ Hx). fold c st w_h.
    unfold h. by rewrite (calling_join_run _ _ _ _ _ _ _ w_h st
                            (current_reassigned c x st w)).
Qed.

(** The closure made under [ambient] and invoked in [world2], where
    [other] is current: the function joined by its handler runs under the
    transaction of [ambient], above the closure's State and [other]. *)
Lemma inner_join_inherits_witness :
  exists st st_g w_g,
    transaction st_g = transaction ambient
    /\ frames 0 w_g = [st_g; st; other]
    /\ wrapCallbackInvocation tracer0
         (calling Join tracer0 105 (probe 0) VUndefined []) 10
         VUndefined [] world2
       = finish_callback 0 10
           (finish 0 st_g (fn_apply (probe 0) VUndefined [] w_g)).
Proof.
  destruct (proj2 (proj2 (inner_join_inherits tracer0 105 (probe 0)
                            VUndefined [] VUndefined [] world2))
              10 ambient)
    as (st & st_g & w_g & Ht & _ & _ & _ & Hfr & Hrun).
  - apply lookup_singleton_eq.
  - exists st, st_g, w_g. repeat split; assumption.
Defined.

(** ** An origin inside a transaction in progress *)

(** X9. A [transactionProxy] wrapper invoked while another transaction is
    in progress suspends it and resumes it: the handler runs above the
    frames of before, and when it returns normally, having left the Context
    as it found it, the wrapper returns its value and the frames, hence the
    current state, are those the factory left, which are those of before
    the call when the factory does not touch the Context. *)
Theorem origin_wrapper_balanced (self : Tracer) (h f : Fun)
    (w0 w0' : World) (this : Value) (args : list Value)
    (w w1 w_out : World) (t : Transaction) (v : Value) :
  let c := context self in
  let st := built t (root (getTrace t)) h w1 in
  transactionProxy self h w0 = (Returned f, w0') ->
  createTransaction (agent self) w = (Returned t, w1) ->
  fn_apply h this args (installed c st w1) = (Returned v, w_out) ->
  frames c w_out = frames c (installed c st w1) ->
  exists w',
    fn_apply f this args w = (Returned v, w')
    /\ frames c w' = frames c w1
    /\ (frames c w1 = frames c w -> current c w' = current c w)
    /\ variables w' = variables w_out
    /\ next_ref w' = next_ref w_out.
Proof.
  intros c st Hf Ht Hh Hkept.
  rewrite (transactionProxy_makes _ _ _ _ _ Hf).
  rewrite (wrapTransactionInvocation_run _ _ _ _ _ _ _ Ht). fold c st.
  rewrite Hh. eexists. split; [reflexivity|].
  assert (frames c (snd (exit c st w_out)) = frames c w1) as Hfr.
  { by rewrite frames_exit, Hkept, frames_installed. }
  split; [done|]. split; [|by split].
  intros Hsame. apply current_of_frames. by rewrite Hfr.
Qed.

(** [probe] originated while [ambient] is current: it reports the new
    transaction 10, and [ambient] is current again afterwards. *)
Lemma origin_wrapper_balanced_witness :
  exists w',
    fn_apply (mkFun 0 (wrapTransactionInvocation tracer0 (probe 0)))
      VUndefined [] world1
    = (Returned (VRef 10), w')
    /\ current 0 w' = Some ambient.
Proof.
  destruct (origin_wrapper_balanced tracer0 (probe 0) _ world0
              (mkWorld ∅ ∅ 1) VUndefined [] world1
              (mkWorld {[ 0 := mkContext [ambient] ]} ∅ 12)
              (installed 0
                 (built (mkTransaction 10 (mkTrace (mkSegment 11)))
                    (mkSegment 11) (probe 0)
                    (mkWorld {[ 0 := mkContext [ambient] ]} ∅ 12))
                 (mkWorld {[ 0 := mkContext [ambient] ]} ∅ 12))
              (mkTransaction 10 (mkTrace (mkSegment 11))) (VRef 10)
              eq_refl eq_refl eq_refl eq_refl)
    as (w' & Hrun & _ & Hcur & _ & _).
  exists w'. split; [exact Hrun|].
  etrans; [apply Hcur|]; reflexivity.
Defined.
